(** * SIR_Traffic: the compartmental derivative functions and link utilities

    A shallow embedding of the numerical core of [SIRModel.ipynb]:
    the Disease-SIR derivative [deriv], the two Traffic-SIR derivatives
    [deriv_traffic] (one per notebook cell), the congestion classifier
    [congested], the shockwave timer [propagation_time] and
    [deriv_congested_links].

    Numbers.  The notebook computes with Python numbers.  Here a number is
    an exact rational ([Q], compared with [==]); rounding of binary floating
    point is not modelled.  What is modelled of Python's arithmetic is its
    partiality: true division [a / b] raises [ZeroDivisionError] when the
    divisor is zero, and indexing a list out of range raises [IndexError].
    Fallible code therefore lives in a small error monad [Py.result]. *)

From Stdlib Require Import QArith ZArith List Lia Lqa.
Import ListNotations.

Open Scope Q_scope.

(** ** Python runtime: exceptions, true division, comparison, indexing *)

Module Py.

Inductive exn : Set :=
| ZeroDivisionError
| IndexError.

Inductive result (A : Type) : Type :=
| Ok (a : A)
| Raise (e : exn).

Arguments Ok {A} a.
Arguments Raise {A} e.

Definition bind {A B : Type} (m : result A) (f : A -> result B) : result B :=
  match m with
  | Ok a => f a
  | Raise e => Raise e
  end.

(** [a / b] on Python numbers. *)
Definition truediv (a b : Q) : result Q :=
  if Qeq_bool b 0 then Raise ZeroDivisionError else Ok (a / b).

(** [a < b] on Python numbers. *)
Definition lt (a b : Q) : bool :=
  (Qnum a * QDen b <? Qnum b * QDen a)%Z.

(** [q[t]] on a Python list: a negative index counts from the end. *)
Definition getitem {A : Type} (q : list A) (t : Z) : result A :=
  let n := Z.of_nat (length q) in
  let i := (if t <? 0 then t + n else t)%Z in
  if ((i <? 0) || (n <=? i))%Z then Raise IndexError
  else match nth_error q (Z.to_nat i) with
       | Some x => Ok x
       | None => Raise IndexError
       end.

(** [returns E r v]: the call returned a value, equal to [v] up to [E]. *)
Definition returns {A : Type} (E : A -> A -> Prop) (r : result A) (v : A) : Prop :=
  match r with
  | Ok x => E x v
  | Raise _ => False
  end.


End Py.

Import Py.

Notation "x <- m ;; k" := (Py.bind m (fun x => k))
  (at level 61, m at next level, right associativity).

(** A state or derivative vector of three compartments, in slot order. *)
Definition vec3 : Type := (Q * Q * Q)%type.

Definition vec3_eq (u v : vec3) : Prop :=
  let '(u0, u1, u2) := u in
  let '(v0, v1, v2) := v in
  u0 == v0 /\ u1 == v1 /\ u2 == v2.

(** The integrator pairs slot [i] of the derivative with slot [i] of the
    state ([odeint(func, y0, t)]: [func] returns [dy/dt], shaped like [y]). *)
Definition slot0 (v : vec3) : Q := fst (fst v).
Definition slot1 (v : vec3) : Q := snd (fst v).
Definition slot2 (v : vec3) : Q := snd v.


(** ** Disease-SIR ([plot_simple_SIR], and verbatim in [plot_fremont_SIR]) *)

Definition deriv (y : vec3) (t N beta gamma : Q) : result vec3 :=
  let '(S_, I_, R_) := y in
  dSdt <- truediv (- beta * S_ * I_) N ;;
  new_cases <- truediv (beta * S_ * I_) N ;;
  let dIdt := new_cases - gamma * I_ in
  let dRdt := gamma * I_ in
  Ok (dSdt, dIdt, dRdt).

Module plot_simple_SIR.
Definition N : Q := 1000.
Definition I0 : Q := 1.
Definition R0 : Q := 0.
Definition S0 : Q := N - I0 - R0.
Definition y0 : vec3 := (S0, I0, R0).
End plot_simple_SIR.

Module plot_fremont_SIR.
Definition N : Q := 4397.
Definition I0 : Q := 450.
Definition R0 : Q := 0.
Definition S0 : Q := N - I0 - R0.
Definition y0 : vec3 := (S0, I0, R0).
End plot_fremont_SIR.

(** ** Link utilities *)

Definition congested (v_t v_max rho : Q) : result bool :=
  ratio <- truediv v_t v_max ;;
  Ok (Py.lt ratio rho).

Definition propagation_time (l q_c v_f k_j : Q) : result Q :=
  k_c <- truediv q_c v_f ;;
  omega <- truediv q_c (k_j - k_c) ;;
  eta <- truediv l omega ;;
  Ok eta.

Definition deriv_congested_links (l : Q) (q : list Q) (v_f k_j : Q) (t : Z)
  : result Q :=
  q_t <- getitem q t ;;
  eta <- propagation_time l q_t v_f k_j ;;
  dCdt <- truediv 1 eta ;;
  Ok dCdt.

(** ** Traffic-SIR, first [plot_traffic_SIR] cell (the older formulation).
    [k] is the local of the enclosing function captured by the closure. *)

Module Cell11.

Section Closure.
Variable k : Q.

Definition deriv_traffic (y : vec3) (t N beta miu : Q) : vec3 :=
  let '(f, c, r) := y in
  let dcdt := - miu * c + beta * k * c * (1 - r - c) in
  let drdt := miu * c in
  let dfdt := - beta * k * c * (1 - r - c) in
  (dcdt, drdt, dfdt).
End Closure.

Definition N : Q := 1000.
Definition C_0 : Q := 100.
Definition R_0 : Q := 0.
Definition F_0 : Q := N - C_0 - R_0.
Definition k : Q := 1.
Definition c_0 : Q := C_0 / N.
Definition r_0 : Q := R_0 / N.
Definition f_0 : Q := F_0 / N.
Definition y_0 : vec3 := (f_0, c_0, r_0).

End Cell11.

(** ** Traffic-SIR, second [plot_traffic_SIR] cell (the later formulation) *)

Module Cell13.

Section Closure.
Variable k : Q.

Definition deriv_traffic (y : vec3) (t N beta miu : Q) : result vec3 :=
  let '(F, C, R) := y in
  frac_F <- truediv F N ;;
  frac_C <- truediv C N ;;
  frac_R <- truediv R N ;;
  let dFdt := - beta * k * C * (1 - frac_R - frac_C) in
  let dCdt := - miu * C + beta * k * C * (1 - frac_R - frac_C) in
  let dRdt := miu * C in
  Ok (dCdt, dRdt, dFdt).
End Closure.

Definition N : Q := 1000.
Definition C_0 : Q := 1.
Definition R_0 : Q := 0.
Definition F_0 : Q := N - C_0 - R_0.
Definition k : Q := 1.
Definition y_0 : vec3 := (F_0, C_0, R_0).

End Cell13.

(** ** Sanity runs *)

Example deriv_y0 :
  deriv plot_simple_SIR.y0 0 plot_simple_SIR.N (1#5) (1#10)
  = Ok (- (1#5) * (999#1) * 1 / 1000, (1#5) * (999#1) * 1 / 1000 - (1#10) * 1, (1#10) * 1).
Proof. reflexivity. Qed.

Example congested_scenario : congested 20 60 (1#2) = Ok true.
Proof. reflexivity. Qed.

Example getitem_last : getitem [1; 2; 3] (-1) = Ok 3.
Proof. reflexivity. Qed.

Example getitem_out : getitem [1; 2; 3] 3 = @Raise Q IndexError.
Proof. reflexivity. Qed.

(** ** The runtime operations *)

Lemma truediv_ok (a b : Q) : ~ b == 0 -> truediv a b = Ok (a / b).
Proof.
  intros Hb. unfold truediv.
  destruct (Qeq_bool b 0) eqn:E; [|reflexivity].
  apply Qeq_bool_eq in E. contradiction.
Qed.

Lemma truediv_zero (a b : Q) : b == 0 -> truediv a b = Raise ZeroDivisionError.
Proof.
  intros Hb. unfold truediv. now rewrite (Qeq_eq_bool _ _ Hb).
Qed.


Lemma lt_iff (a b : Q) : Py.lt a b = true <-> a < b.
Proof. unfold Py.lt, Qlt. apply Z.ltb_lt. Qed.

Lemma Qdiv_zero_l (a b : Q) : a == 0 -> a / b == 0.
Proof. intros ->. unfold Qdiv. ring. Qed.


Ltac run_truediv :=
  repeat (match goal with
          | H : ~ ?b == 0 |- context [truediv ?a ?b] =>
              rewrite (truediv_ok a b H)
          end;
          cbn [Py.bind]);
  cbn [Py.bind Py.returns].

(** ** Disease-SIR derivative *)

Lemma deriv_ok (S_ I_ R_ t N beta gamma : Q) :
  ~ N == 0 ->
  deriv (S_, I_, R_) t N beta gamma
  = Ok (- beta * S_ * I_ / N, beta * S_ * I_ / N - gamma * I_, gamma * I_).
Proof.
  intros HN. unfold deriv. now run_truediv.
Qed.


(** C2: for N <> 0 the Disease-SIR derivative returns a value, and that
    value is the triple (-beta*S*I/N, beta*S*I/N - gamma*I, gamma*I): slot 0
    holds dS/dt, slot 1 holds dI/dt and slot 2 holds dR/dt, the slot order
    (S, I, R) of the state and of the initial vector y0 = (S0, I0, R0). *)
Theorem deriv_returns_SIR_triple (S_ I_ R_ t N beta gamma : Q) :
  ~ N == 0 ->
  (exists d, deriv (S_, I_, R_) t N beta gamma = Ok d /\
     slot0 d == - (beta * S_ * I_ / N) /\
     slot1 d == beta * S_ * I_ / N - gamma * I_ /\
     slot2 d == gamma * I_) /\
  slot0 (S_, I_, R_) = S_ /\ slot1 (S_, I_, R_) = I_ /\ slot2 (S_, I_, R_) = R_ /\
  plot_simple_SIR.y0
  = (plot_simple_SIR.S0, plot_simple_SIR.I0, plot_simple_SIR.R0).
Proof.
  intros HN. split; [|repeat split].
  eexists. split; [apply deriv_ok, HN|].
  cbn [slot0 slot1 slot2 fst snd]. repeat split; try reflexivity.
  field. exact HN.
Qed.

Lemma deriv_returns_SIR_triple_witness :
  ~ 1000 == 0 /\
  exists d, deriv plot_simple_SIR.y0 0 plot_simple_SIR.N (1#5) (1#10) = Ok d /\
    slot0 d == - (999 # 5000) /\ slot1 d == 499 # 5000 /\ slot2 d == 1 # 10.
Proof.
  assert (HN : ~ 1000 == 0) by discriminate.
  split; [exact HN|].
  destruct (deriv_returns_SIR_triple 999 1 0 0 1000 (1#5) (1#10) HN)
    as [[d [E [H0 [H1 H2]]]] _].
  exists d. split; [exact E|].
  rewrite H0, H1, H2. repeat split; reflexivity.
Defined.

(** ** Traffic-SIR derivative, later cell *)

Lemma deriv_traffic_ok (k F C R t N beta miu : Q) :
  ~ N == 0 ->
  Cell13.deriv_traffic k (F, C, R) t N beta miu
  = Ok (- miu * C + beta * k * C * (1 - R / N - C / N),
        miu * C,
        - beta * k * C * (1 - R / N - C / N)).
Proof.
  intros HN. unfold Cell13.deriv_traffic. now run_truediv.
Qed.


(** The returned tuple is a rotation of the compartment order: the state is
    unpacked as (F, C, R) but the result is packed as (dC, dR, dF). *)
Lemma deriv_traffic_slot_order (k F C R t N beta miu : Q) :
  ~ N == 0 ->
  exists d, Cell13.deriv_traffic k (F, C, R) t N beta miu = Ok d /\
    slot0 d == - miu * C + beta * k * C * (1 - R / N - C / N) /\
    slot1 d == miu * C /\
    slot2 d == - beta * k * C * (1 - R / N - C / N).
Proof.
  intros HN. eexists. split; [apply deriv_traffic_ok, HN|].
  cbn [slot0 slot1 slot2 fst snd]. repeat split; reflexivity.
Qed.

(** C1: evaluated at the notebook's own initial vector y_0 = (F_0, C_0, R_0)
    = (999, 1, 0) with N = 1000, k = 1, beta = 0.2, miu = 0.1, the later
    Traffic-SIR derivative puts dC/dt = -mu*C + beta*k*C*(1 - r - c)
    = 499/5000 into slot 0, the slot of F, where the stated derivative of F
    is -beta*k*C*(1 - r - c) = -999/5000; slot 1 (C) receives mu*C = 1/10
    and slot 2 (R) receives the derivative stated for F. *)
Theorem deriv_traffic_F_slot_receives_dCdt :
  slot0 Cell13.y_0 = Cell13.F_0 /\
  slot1 Cell13.y_0 = Cell13.C_0 /\
  slot2 Cell13.y_0 = Cell13.R_0 /\
  exists d,
    Cell13.deriv_traffic Cell13.k Cell13.y_0 0 Cell13.N (1#5) (1#10) = Ok d /\
    slot0 d == 499 # 5000 /\
    slot1 d == 1 # 10 /\
    slot2 d == - (999 # 5000) /\
    ~ slot0 d == - (1#5) * Cell13.k * Cell13.C_0
                 * (1 - Cell13.R_0 / Cell13.N - Cell13.C_0 / Cell13.N) /\
    ~ slot1 d == - (1#10) * Cell13.C_0
                 + (1#5) * Cell13.k * Cell13.C_0
                   * (1 - Cell13.R_0 / Cell13.N - Cell13.C_0 / Cell13.N) /\
    ~ slot2 d == (1#10) * Cell13.C_0.
Proof.
  repeat split; try reflexivity.
  eexists. split; [reflexivity|].
  cbn [slot0 slot1 slot2 fst snd].
  repeat split; try reflexivity; discriminate.
Qed.

(** ** Conservation *)



(** ** Equilibria *)




(** ** The two Traffic-SIR formulations *)

Lemma deriv_traffic_old_unfold (k f c r t N beta miu : Q) :
  Cell11.deriv_traffic k (f, c, r) t N beta miu
  = (- miu * c + beta * k * c * (1 - r - c),
     miu * c,
     - beta * k * c * (1 - r - c)).
Proof. reflexivity. Qed.

(** On one and the same state the two cells agree only in degenerate cases. *)
Lemma formulations_agree_iff (k F C R t N beta miu : Q) :
  ~ N == 0 ->
  Py.returns vec3_eq (Cell13.deriv_traffic k (F, C, R) t N beta miu)
                     (Cell11.deriv_traffic k (F, C, R) t N beta miu)
  <-> (N == 1 \/ beta * k * C * (R + C) == 0).
Proof.
  intros HN.
  rewrite (deriv_traffic_ok _ _ _ _ _ _ _ _ HN), deriv_traffic_old_unfold.
  unfold Py.returns, vec3_eq. split.
  - intros [_ [_ H]].
    assert (P : (N - 1) * (beta * k * C * (R + C)) == 0).
    { assert (E : (N - 1) * (beta * k * C * (R + C))
                  == N * (- (- beta * k * C * (1 - R / N - C / N))
                          + - beta * k * C * (1 - R - C)))
        by (field; exact HN).
      rewrite E, H. ring. }
    apply Qmult_integral in P. destruct P as [P|P]; [left|right; exact P].
    rewrite <- (Qplus_0_r 1), <- P. ring.
  - intros H.
    assert (E : beta * k * C * (1 - R / N - C / N)
                == beta * k * C * (1 - R - C)
                   + (N - 1) * (beta * k * C * (R + C)) / N)
      by (field; exact HN).
    assert (Z : (N - 1) * (beta * k * C * (R + C)) / N == 0).
    { apply Qdiv_zero_l. destruct H as [H|H]; rewrite H; ring. }
    rewrite Z, Qplus_0_r in E.
    split; [|split].
    + rewrite E. reflexivity.
    + reflexivity.
    + setoid_replace (- beta * k * C * (1 - R / N - C / N))
        with (- (beta * k * C * (1 - R / N - C / N))) by ring.
      rewrite E. ring.
Qed.

(** C7: the two cells hold different Traffic-SIR derivatives.  The older
    one builds every term from the raw state components, c * (1 - r - c),
    and never uses N; the later one multiplies the count C by the fraction
    (1 - R/N - C/N).  For N <> 0 they return the same vector exactly when
    N = 1 or beta*k*C*(R + C) = 0, and on the count-valued initial state
    (999, 1, 0) with N = 1000, k = 1, beta = 0.2, miu = 0.1 they differ. *)
Theorem traffic_formulations_differ :
  (forall k f c r t N beta miu,
      Cell11.deriv_traffic k (f, c, r) t N beta miu
      = (- miu * c + beta * k * c * (1 - r - c),
         miu * c,
         - beta * k * c * (1 - r - c))) /\
  (forall k F C R t N beta miu,
      ~ N == 0 ->
      Py.returns vec3_eq (Cell13.deriv_traffic k (F, C, R) t N beta miu)
        (- miu * C + beta * k * C * (1 - R / N - C / N),
         miu * C,
         - beta * k * C * (1 - R / N - C / N))) /\
  (forall k F C R t N beta miu,
      ~ N == 0 ->
      Py.returns vec3_eq (Cell13.deriv_traffic k (F, C, R) t N beta miu)
                         (Cell11.deriv_traffic k (F, C, R) t N beta miu)
      <-> (N == 1 \/ beta * k * C * (R + C) == 0)) /\
  ~ Py.returns vec3_eq
      (Cell13.deriv_traffic Cell13.k Cell13.y_0 0 Cell13.N (1#5) (1#10))
      (Cell11.deriv_traffic Cell11.k Cell13.y_0 0 Cell13.N (1#5) (1#10)).
Proof.
  split; [exact deriv_traffic_old_unfold|].
  split.
  { intros k F C R t N beta miu HN.
    rewrite (deriv_traffic_ok _ _ _ _ _ _ _ _ HN).
    unfold Py.returns, vec3_eq. repeat split; reflexivity. }
  split; [exact formulations_agree_iff|].
  unfold Cell13.y_0.
  rewrite formulations_agree_iff by discriminate.
  intros [H|H]; discriminate H.
Qed.

Lemma traffic_formulations_differ_witness :
  ~ 1000 == 0 /\
  Py.returns vec3_eq (Cell13.deriv_traffic 1 (999, 1, 0) 0 1000 (1#5) (1#10))
    (499 # 5000, 1 # 10, - (999 # 5000)).
Proof.
  assert (HN : ~ 1000 == 0) by discriminate.
  split; [exact HN|].
  destruct traffic_formulations_differ as [_ [L _]].
  specialize (L 1 999 1 0 0 1000 (1#5) (1#10) HN).
  destruct (Cell13.deriv_traffic 1 (999, 1, 0) 0 1000 (1 # 5) (1 # 10))
    as [[[d0 d1] d2]|e]; [|exact L].
  unfold Py.returns, vec3_eq in *.
  destruct L as [L0 [L1 L2]]. rewrite L0, L1, L2.
  repeat split; reflexivity.
Defined.

(** ** Congestion classifier *)

Lemma congested_ok (v_t v_max rho : Q) :
  ~ v_max == 0 -> congested v_t v_max rho = Ok (Py.lt (v_t / v_max) rho).
Proof.
  intros H. unfold congested. now run_truediv.
Qed.




(** ** Propagation timer *)




Lemma propagation_time_error_kind (l q_c v_f k_j : Q) (e : exn) :
  propagation_time l q_c v_f k_j = Raise e -> e = ZeroDivisionError.
Proof.
  unfold propagation_time, truediv.
  repeat (match goal with
          | |- context [Qeq_bool ?a ?b] => destruct (Qeq_bool a b)
          end; cbn [Py.bind]);
    congruence.
Qed.












(** ** Rate of newly congested links *)



(** * Further properties of the modelled code *)

(** ** Disease-SIR derivative: errors, signs, threshold, scaling *)


(** X2: with N > 0, a non-negative contact rate and non-negative S and I,
    the derivative of S is never positive; with a non-negative recovery
    rate and non-negative I, the derivative of R is never negative. *)
Theorem deriv_S_falls_R_grows (S_ I_ R_ t N beta gamma : Q) :
  0 < N -> 0 <= S_ -> 0 <= I_ ->
  exists d, deriv (S_, I_, R_) t N beta gamma = Ok d /\
            (0 <= beta -> slot0 d <= 0) /\
            (0 <= gamma -> 0 <= slot2 d).
Proof.
  intros HN HS HI.
  assert (HN0 : ~ N == 0) by (intros E; rewrite E in HN; discriminate HN).
  eexists. split; [apply deriv_ok, HN0|].
  cbn [slot0 slot1 slot2 fst snd]. split.
  - intros Hb.
    assert (P : 0 <= beta * S_ * I_).
    { apply Qmult_le_0_compat; [apply Qmult_le_0_compat|]; assumption. }
    assert (E : - beta * S_ * I_ / N == - (beta * S_ * I_ / N))
      by (field; exact HN0).
    rewrite E.
    assert (0 <= beta * S_ * I_ / N); [|lra].
    apply Qle_shift_div_l; [exact HN|]. now rewrite Qmult_0_l.
  - intros Hg. now apply Qmult_le_0_compat.
Qed.

Lemma deriv_S_falls_R_grows_witness :
  0 < 1000 /\ 0 <= 999 /\ 0 <= 1 /\
  exists d, deriv (999, 1, 0) 0 1000 (1#5) (1#10) = Ok d /\
            slot0 d <= 0 /\ 0 <= slot2 d.
Proof.
  assert (HN : 0 < 1000) by reflexivity.
  assert (HS : 0 <= 999) by discriminate.
  assert (HI : 0 <= 1) by discriminate.
  repeat (split; [assumption|]).
  destruct (deriv_S_falls_R_grows 999 1 0 0 1000 (1#5) (1#10) HN HS HI)
    as [d [E [A B]]].
  exists d. split; [exact E|].
  split; [apply A|apply B]; discriminate.
Defined.





(** X5: degenerate rates.  For N <> 0: with beta = 0 nobody is infected
    (dS/dt = 0) and the infected only recover (dI/dt = -gamma * I); with
    gamma = 0 nobody recovers (dR/dt = 0) and dI/dt = -dS/dt. *)
Theorem deriv_degenerate_rates (S_ I_ R_ t N beta gamma : Q) :
  ~ N == 0 ->
  exists d, deriv (S_, I_, R_) t N beta gamma = Ok d /\
            (beta == 0 -> slot0 d == 0 /\ slot1 d == - gamma * I_) /\
            (gamma == 0 -> slot2 d == 0 /\ slot1 d == - slot0 d).
Proof.
  intros HN. eexists. split; [apply deriv_ok, HN|].
  cbn [slot0 slot1 slot2 fst snd].
  split; intros ->; split; field; exact HN.
Qed.

Lemma deriv_degenerate_rates_witness :
  ~ 1000 == 0 /\
  exists d, deriv (999, 1, 0) 0 1000 0 (1#10) = Ok d /\
            slot0 d == 0 /\ slot1 d == - (1 # 10).
Proof.
  assert (HN : ~ 1000 == 0) by discriminate.
  split; [exact HN|].
  destruct (deriv_degenerate_rates 999 1 0 0 1000 0 (1#10) HN)
    as [d [E [A _]]].
  exists d. split; [exact E|].
  destruct (A (Qeq_refl 0)) as [A0 A1]. split; [exact A0|].
  rewrite A1. reflexivity.
Defined.

(** ** Traffic-SIR derivatives: errors, conservation, the two cells related *)










(** ** Congestion classifier: cross-multiplied form, monotonicity, units *)

Lemma lt_compat (a a' b b' : Q) : a == a' -> b == b' -> Py.lt a b = Py.lt a' b'.
Proof.
  intros Ha Hb.
  destruct (Py.lt a b) eqn:E1, (Py.lt a' b') eqn:E2; try reflexivity.
  - apply lt_iff in E1. rewrite Ha, Hb in E1. apply lt_iff in E1. congruence.
  - apply lt_iff in E2. rewrite <- Ha, <- Hb in E2. apply lt_iff in E2.
    congruence.
Qed.

Lemma ratio_below_iff (v_t v_max rho : Q) :
  ~ v_max == 0 ->
  (0 < v_max -> (v_t / v_max < rho <-> v_t < rho * v_max)) /\
  (v_max < 0 -> (v_t / v_max < rho <-> rho * v_max < v_t)).
Proof.
  intros H0.
  assert (E : v_t == v_t / v_max * v_max) by (field; exact H0).
  set (x := v_t / v_max) in *.
  split; intros Hs; split; intros H.
  - rewrite E. nra.
  - rewrite E in H. destruct (Qlt_le_dec x rho) as [L|L]; [exact L|]. nra.
  - rewrite E. nra.
  - rewrite E in H. destruct (Qlt_le_dec x rho) as [L|L]; [exact L|]. nra.
Qed.



(** X12: monotonicity.  For v_max > 0, a link classified as congested stays
    congested at every lower or equal speed and every higher or equal
    threshold. *)
Theorem congested_monotone (v_t v_t' v_max rho rho' : Q) :
  0 < v_max -> v_t' <= v_t -> rho <= rho' ->
  congested v_t v_max rho = Ok true ->
  congested v_t' v_max rho' = Ok true.
Proof.
  intros Hm Hv Hr H.
  assert (H0 : ~ v_max == 0) by (intros E; rewrite E in Hm; discriminate Hm).
  rewrite (congested_ok v_t _ _ H0) in H.
  rewrite (congested_ok v_t' _ _ H0). f_equal.
  injection H as H. apply lt_iff in H. apply lt_iff.
  apply (proj1 (ratio_below_iff v_t v_max rho H0) Hm) in H.
  apply (proj1 (ratio_below_iff v_t' v_max rho' H0) Hm). nra.
Qed.

Lemma congested_monotone_witness :
  0 < 60 /\ 10 <= 20 /\ (1#2) <= (3#4) /\
  congested 20 60 (1#2) = Ok true /\ congested 10 60 (3#4) = Ok true.
Proof.
  assert (Hm : 0 < 60) by reflexivity.
  assert (Hv : 10 <= 20) by discriminate.
  assert (Hr : (1#2) <= (3#4)) by discriminate.
  assert (H : congested 20 60 (1#2) = Ok true) by reflexivity.
  repeat (split; [assumption|]).
  exact (congested_monotone 20 10 60 (1#2) (3#4) Hm Hv Hr H).
Defined.

(** X13: the classifier does not depend on the unit of speed: scaling v_t
    and v_max by the same nonzero factor gives the same outcome, the same
    boolean or the same ZeroDivisionError. *)
Theorem congested_unit_free (v_t v_max rho a : Q) :
  ~ a == 0 ->
  congested (a * v_t) (a * v_max) rho = congested v_t v_max rho.
Proof.
  intros Ha. destruct (Qeq_dec v_max 0) as [E|E].
  - unfold congested. rewrite (truediv_zero _ _ E).
    assert (E' : a * v_max == 0) by (rewrite E; ring).
    now rewrite (truediv_zero _ _ E').
  - assert (E' : ~ a * v_max == 0).
    { intros Z. apply Qmult_integral in Z. tauto. }
    rewrite (congested_ok _ _ _ E), (congested_ok _ _ _ E'). f_equal.
    apply lt_compat; [|reflexivity]. field. auto.
Qed.

Lemma congested_unit_free_witness :
  ~ (18 # 5) == 0 /\
  congested ((18#5) * 20) ((18#5) * 60) (1#2) = congested 20 60 (1#2).
Proof.
  assert (Ha : ~ (18 # 5) == 0) by discriminate.
  split; [exact Ha|].
  exact (congested_unit_free 20 60 (1#2) (18#5) Ha).
Defined.

(** ** Propagation timer: closed form, linearity in the length, jam density *)









(** ** Rate of newly congested links: indexing and division errors *)

Lemma getitem_out_of_range {A : Type} (q : list A) (t : Z) :
  (t < - Z.of_nat (length q) \/ Z.of_nat (length q) <= t)%Z ->
  getitem q t = Raise IndexError.
Proof.
  intros H. unfold getitem.
  destruct (t <? 0)%Z eqn:Et.
  - apply Z.ltb_lt in Et.
    assert (X : ((t + Z.of_nat (length q) <? 0) = true)%Z)
      by (apply Z.ltb_lt; lia).
    now rewrite X.
  - apply Z.ltb_ge in Et.
    assert (X : ((Z.of_nat (length q) <=? t) = true)%Z)
      by (apply Z.leb_le; lia).
    rewrite X. now rewrite Bool.orb_true_r.
Qed.

Lemma getitem_in_range {A : Type} (q : list A) (t : Z) :
  (- Z.of_nat (length q) <= t < Z.of_nat (length q))%Z ->
  exists x, getitem q t = Ok x.
Proof.
  intros H. unfold getitem.
  set (n := Z.of_nat (length q)) in *.
  set (i := (if (t <? 0)%Z then (t + n)%Z else t)).
  assert (Hi : (0 <= i < n)%Z).
  { subst i. destruct (t <? 0)%Z eqn:Et;
      [apply Z.ltb_lt in Et|apply Z.ltb_ge in Et]; lia. }
  assert (X1 : (i <? 0)%Z = false) by (apply Z.ltb_ge; lia).
  assert (X2 : (n <=? i)%Z = false) by (apply Z.leb_gt; lia).
  rewrite X1, X2. cbn [orb].
  destruct (nth_error q (Z.to_nat i)) as [x|] eqn:E; [now exists x|].
  apply nth_error_None in E. subst n. lia.
Qed.

Lemma getitem_error_kind {A : Type} (q : list A) (t : Z) (e : exn) :
  getitem q t = Raise e -> e = IndexError.
Proof.
  unfold getitem.
  destruct (_ || _)%bool; [congruence|].
  destruct (nth_error _ _); congruence.
Qed.

Lemma getitem_wrap {A : Type} (q : list A) (t : Z) :
  (- Z.of_nat (length q) <= t < 0)%Z ->
  getitem q t = getitem q (t + Z.of_nat (length q)).
Proof.
  intros H. unfold getitem.
  assert (X1 : (t <? 0)%Z = true) by (apply Z.ltb_lt; lia).
  assert (X2 : (t + Z.of_nat (length q) <? 0)%Z = false)
    by (apply Z.ltb_ge; lia).
  cbv zeta. rewrite X1. repeat rewrite X2. reflexivity.
Qed.

Lemma deriv_congested_links_at (l : Q) (q : list Q) (v_f k_j : Q) (t : Z)
      (q_t : Q) :
  getitem q t = Ok q_t ->
  deriv_congested_links l q v_f k_j t
  = (eta <- propagation_time l q_t v_f k_j ;; truediv 1 eta).
Proof.
  intros H. unfold deriv_congested_links. rewrite H. cbn [Py.bind].
  destruct (propagation_time l q_t v_f k_j) as [eta|e]; cbn [Py.bind];
    [|reflexivity].
  now destruct (truediv 1 eta).
Qed.

(** X17: deriv_congested_links raises IndexError exactly when t is outside
    [-len(q), len(q)), whatever the other arguments (the index is looked up
    before anything is divided); in particular an empty q raises IndexError
    for every t. *)
Theorem deriv_congested_links_index_error
        (l : Q) (q : list Q) (v_f k_j : Q) (t : Z) :
  ((t < - Z.of_nat (length q) \/ Z.of_nat (length q) <= t)%Z
   <-> deriv_congested_links l q v_f k_j t = Raise IndexError) /\
  deriv_congested_links l [] v_f k_j t = Raise IndexError.
Proof.
  split.
  - split.
    + intros H. unfold deriv_congested_links.
      now rewrite (getitem_out_of_range q t H).
    + intros H.
      destruct (Z_lt_dec t (- Z.of_nat (length q))) as [L|L]; [now left|].
      destruct (Z_le_dec (Z.of_nat (length q)) t) as [G|G]; [now right|].
      exfalso.
      destruct (getitem_in_range q t ltac:(lia)) as [q_t E].
      rewrite (deriv_congested_links_at _ _ _ _ _ _ E) in H.
      destruct (propagation_time l q_t v_f k_j) as [eta|e] eqn:P;
        cbn [Py.bind] in H.
      * unfold truediv in H. destruct (Qeq_bool eta 0); discriminate H.
      * apply propagation_time_error_kind in P. congruence.
  - unfold deriv_congested_links.
    rewrite (getitem_out_of_range (@nil Q) t); [reflexivity|].
    cbn [length]. lia.
Qed.



(** X19: a negative index counts from the end of q: for
    -len(q) <= t < 0 the call at t gives the same outcome as the call at
    t + len(q). *)
Theorem deriv_congested_links_negative_index
        (l : Q) (q : list Q) (v_f k_j : Q) (t : Z) :
  (- Z.of_nat (length q) <= t < 0)%Z ->
  deriv_congested_links l q v_f k_j t
  = deriv_congested_links l q v_f k_j (t + Z.of_nat (length q)).
Proof.
  intros H. unfold deriv_congested_links. now rewrite (getitem_wrap q t H).
Qed.

Lemma deriv_congested_links_negative_index_witness :
  (- Z.of_nat (length [1200; 1800]) <= -1 < 0)%Z /\
  deriv_congested_links 500 [1200; 1800] 60 180 (-1)
  = deriv_congested_links 500 [1200; 1800] 60 180 1.
Proof.
  assert (H : (- Z.of_nat (length [1200; 1800]) <= -1 < 0)%Z)
    by (cbn; lia).
  split; [exact H|].
  exact (deriv_congested_links_negative_index 500 [1200; 1800] 60 180 (-1) H).
Defined.


